(** * ArdunixNix6: the button debouncer and the display transition engine

    A shallow embedding of
      - [ardunixFade9_4_digit/ClockButton.{h,cpp}]  (module [Button]),
      - [ardunixFade9_6_digit/Transition.{h,cpp}] and [DisplayDefs.h]
        (module [Engine]),
    followed by the properties proved about them.

    Machine integers are carried by [Z] with the wrap-around written out.
    The firmware targets the ATmega328 (avr-gcc): [byte] is [uint8_t],
    [int] is 16 bits wide and [unsigned long] is 32 bits wide. *)

From Stdlib Require Import ZArith Bool Lia.
From stdpp Require Import base list.

Local Open Scope Z_scope.

(** ** Machine integers *)

Module CInt.

(** Conversion to [byte] (Arduino.h: [typedef uint8_t byte]). *)
Definition to_byte (z : Z) : Z := z mod 256.

(** Conversion to [unsigned long], and the result of every
    [unsigned long] operation: reduction modulo 2^32. *)
Definition to_ulong (z : Z) : Z := z mod 4294967296.

(** Conversion of an out-of-range value to the 16-bit [int]
    (two's complement, as avr-gcc defines it). *)
Definition to_int (z : Z) : Z := (z + 32768) mod 65536 - 32768.

(** The 16-bit [int] operations, with the two's-complement result that
    avr-gcc computes when the exact result does not fit. *)
Definition int_add (a b : Z) : Z := to_int (a + b).
Definition int_sub (a b : Z) : Z := to_int (a - b).
Definition int_mul (a b : Z) : Z := to_int (a * b).
Definition int_neg (a : Z) : Z := to_int (- a).

(** [a / b] and [a % b] truncate towards zero; with a zero divisor there is
    no result. *)
Definition int_div (a b : Z) : option Z :=
  if b =? 0 then None else Some (to_int (a ÷ b)).
Definition int_rem (a b : Z) : option Z :=
  if b =? 0 then None else Some (Z.rem a b).

End CInt.

(** ** ClockButton *)

Module Button.

Import CInt.

(** The private members of [class ClockButton] that the methods read or
    write.  [_inputPin] selects the hardware pin and [_activeLow] is stored
    and never read; the value [digitalRead(_inputPin)] returns is an input
    of [checkButtonInternal] below. *)
Record ClockButton : Type := mkClockButton {
  button1PressedCount : Z;
  button1PressStartMillis : Z;
  buttonWasReleased : bool;
  buttonPress8S : bool;
  buttonPress2S : bool;
  buttonPress1S : bool;
  buttonPress : bool;
  buttonPressRelease8S : bool;
  buttonPressRelease2S : bool;
  buttonPressRelease1S : bool;
  buttonPressRelease : bool
}.

(** [const byte debounceCounter = 5]. *)
Definition debounceCounter : Z := 5.

(** The in-class member initialisers of ClockButton.h. *)
Definition initial : ClockButton :=
  mkClockButton 0 0 false false false false false false false false false.

(** Field assignments. *)
Definition set_count (v : Z) (b : ClockButton) : ClockButton :=
  mkClockButton v (button1PressStartMillis b) (buttonWasReleased b)
    (buttonPress8S b) (buttonPress2S b) (buttonPress1S b) (buttonPress b)
    (buttonPressRelease8S b) (buttonPressRelease2S b)
    (buttonPressRelease1S b) (buttonPressRelease b).

Definition set_start (v : Z) (b : ClockButton) : ClockButton :=
  mkClockButton (button1PressedCount b) v (buttonWasReleased b)
    (buttonPress8S b) (buttonPress2S b) (buttonPress1S b) (buttonPress b)
    (buttonPressRelease8S b) (buttonPressRelease2S b)
    (buttonPressRelease1S b) (buttonPressRelease b).

Definition set_wasReleased (v : bool) (b : ClockButton) : ClockButton :=
  mkClockButton (button1PressedCount b) (button1PressStartMillis b) v
    (buttonPress8S b) (buttonPress2S b) (buttonPress1S b) (buttonPress b)
    (buttonPressRelease8S b) (buttonPressRelease2S b)
    (buttonPressRelease1S b) (buttonPressRelease b).

(** The four assignments [buttonPress8S = p8; buttonPress2S = p2;
    buttonPress1S = p1; buttonPress = p;]. *)
Definition set_press (p8 p2 p1 p : bool) (b : ClockButton) : ClockButton :=
  mkClockButton (button1PressedCount b) (button1PressStartMillis b)
    (buttonWasReleased b) p8 p2 p1 p
    (buttonPressRelease8S b) (buttonPressRelease2S b)
    (buttonPressRelease1S b) (buttonPressRelease b).

Definition set_release8S (v : bool) (b : ClockButton) : ClockButton :=
  mkClockButton (button1PressedCount b) (button1PressStartMillis b)
    (buttonWasReleased b)
    (buttonPress8S b) (buttonPress2S b) (buttonPress1S b) (buttonPress b)
    v (buttonPressRelease2S b) (buttonPressRelease1S b) (buttonPressRelease b).

Definition set_release2S (v : bool) (b : ClockButton) : ClockButton :=
  mkClockButton (button1PressedCount b) (button1PressStartMillis b)
    (buttonWasReleased b)
    (buttonPress8S b) (buttonPress2S b) (buttonPress1S b) (buttonPress b)
    (buttonPressRelease8S b) v (buttonPressRelease1S b) (buttonPressRelease b).

Definition set_release1S (v : bool) (b : ClockButton) : ClockButton :=
  mkClockButton (button1PressedCount b) (button1PressStartMillis b)
    (buttonWasReleased b)
    (buttonPress8S b) (buttonPress2S b) (buttonPress1S b) (buttonPress b)
    (buttonPressRelease8S b) (buttonPressRelease2S b) v (buttonPressRelease b).

Definition set_release (v : bool) (b : ClockButton) : ClockButton :=
  mkClockButton (button1PressedCount b) (button1PressStartMillis b)
    (buttonWasReleased b)
    (buttonPress8S b) (buttonPress2S b) (buttonPress1S b) (buttonPress b)
    (buttonPressRelease8S b) (buttonPressRelease2S b) (buttonPressRelease1S b) v.

(** [nowMillis - button1PressStartMillis], an [unsigned long]. *)
Definition heldMillis (nowMillis : Z) (b : ClockButton) : Z :=
  to_ulong (nowMillis - button1PressStartMillis b).

(** [ClockButton::checkButtonInternal]; [pin] is the value that
    [digitalRead(_inputPin)] returns on this call. *)
Definition checkButtonInternal (pin nowMillis : Z) (b : ClockButton) : ClockButton :=
  if pin =? 0 then
    let b := set_wasReleased false b in
    if button1PressedCount b <? debounceCounter then
      let b := set_count (button1PressedCount b + 1) b in
      if button1PressedCount b =? debounceCounter
      then set_start nowMillis b
      else b
    else
      if heldMillis nowMillis b >? 8000 then set_press true true true true b
      else if heldMillis nowMillis b >? 2000 then set_press false true true true b
      else if heldMillis nowMillis b >? 1000 then set_press false false true true b
      else set_press false false false true b
  else
    let b :=
      if button1PressedCount b =? debounceCounter then
        let b := set_wasReleased true b in
        let b := set_release8S false b in
        let b := set_release2S false b in
        let b := set_release1S false b in
        let b := set_release false b in
        if buttonPress8S b then set_release8S true b
        else if buttonPress2S b then set_release2S true b
        else if buttonPress1S b then set_release1S true b
        else if buttonPress b then set_release true b
        else b
      else b in
    set_count 0 (set_press false false false false b).

(** [ClockButton::resetInternal]. *)
Definition resetInternal (b : ClockButton) : ClockButton :=
  let b := set_release8S false b in
  let b := set_release2S false b in
  let b := set_release1S false b in
  let b := set_release false b in
  let b := set_press false false false false b in
  set_count 0 b.

Definition checkButton (pin nowMillis : Z) (b : ClockButton) : ClockButton :=
  checkButtonInternal pin nowMillis b.

Definition reset (b : ClockButton) : ClockButton := resetInternal b.

(** The accessors.  Those that only read return a [bool]; the
    read-and-clear ones return the result and the new object. *)
Definition isButtonPressedNow (b : ClockButton) : bool :=
  button1PressedCount b =? debounceCounter.
Definition isButtonPressed (b : ClockButton) : bool := buttonPress b.
Definition isButtonPressed1S (b : ClockButton) : bool := buttonPress1S b.
Definition isButtonPressed2S (b : ClockButton) : bool := buttonPress2S b.
Definition isButtonPressed8S (b : ClockButton) : bool := buttonPress8S b.

Definition isButtonPressedAndReleased (b : ClockButton) : bool * ClockButton :=
  if buttonPressRelease b then (true, set_release false b) else (false, b).
Definition isButtonPressedReleased1S (b : ClockButton) : bool * ClockButton :=
  if buttonPressRelease1S b then (true, set_release1S false b) else (false, b).
Definition isButtonPressedReleased2S (b : ClockButton) : bool * ClockButton :=
  if buttonPressRelease2S b then (true, set_release2S false b) else (false, b).
Definition isButtonPressedReleased8S (b : ClockButton) : bool * ClockButton :=
  if buttonPressRelease8S b then (true, set_release8S false b) else (false, b).

(** *** Call sequences on one button object *)

Inductive call : Type :=
| CheckButton (pin nowMillis : Z)
| Reset
| IsButtonPressedNow
| IsButtonPressed
| IsButtonPressed1S
| IsButtonPressed2S
| IsButtonPressed8S
| IsButtonPressedAndReleased
| IsButtonPressedReleased1S
| IsButtonPressedReleased2S
| IsButtonPressedReleased8S.

(** One public call: the value it returns (if any) and the object after it. *)
Definition exec (c : call) (b : ClockButton) : option bool * ClockButton :=
  match c with
  | CheckButton pin nowMillis => (None, checkButton pin nowMillis b)
  | Reset => (None, reset b)
  | IsButtonPressedNow => (Some (isButtonPressedNow b), b)
  | IsButtonPressed => (Some (isButtonPressed b), b)
  | IsButtonPressed1S => (Some (isButtonPressed1S b), b)
  | IsButtonPressed2S => (Some (isButtonPressed2S b), b)
  | IsButtonPressed8S => (Some (isButtonPressed8S b), b)
  | IsButtonPressedAndReleased =>
      let r := isButtonPressedAndReleased b in (Some (fst r), snd r)
  | IsButtonPressedReleased1S =>
      let r := isButtonPressedReleased1S b in (Some (fst r), snd r)
  | IsButtonPressedReleased2S =>
      let r := isButtonPressedReleased2S b in (Some (fst r), snd r)
  | IsButtonPressedReleased8S =>
      let r := isButtonPressedReleased8S b in (Some (fst r), snd r)
  end.

(** The object after a sequence of calls, first call first. *)
Fixpoint run (cs : list call) (b : ClockButton) : ClockButton :=
  match cs with
  | [] => b
  | c :: cs' => run cs' (snd (exec c b))
  end.

(** *** Observations used in the statements *)

Inductive tier : Type := T8S | T2S | T1S | TPress.

(** The level flags, as the tuple (pressed, 1s, 2s, 8s). *)
Definition levels (b : ClockButton) : bool * bool * bool * bool :=
  (buttonPress b, buttonPress1S b, buttonPress2S b, buttonPress8S b).

(** The highest level flag that is true, in the order 8s > 2s > 1s > pressed. *)
Definition highest_level (b : ClockButton) : option tier :=
  if buttonPress8S b then Some T8S
  else if buttonPress2S b then Some T2S
  else if buttonPress1S b then Some T1S
  else if buttonPress b then Some TPress
  else None.

(** The one-shot release flags that are set. *)
Definition releases_set (b : ClockButton) : list tier :=
  (if buttonPressRelease8S b then [T8S] else []) ++
  (if buttonPressRelease2S b then [T2S] else []) ++
  (if buttonPressRelease1S b then [T1S] else []) ++
  (if buttonPressRelease b then [TPress] else []).

(** 8s implies 2s implies 1s implies pressed. *)
Definition levels_nested (b : ClockButton) : Prop :=
  (buttonPress8S b = true -> buttonPress2S b = true) /\
  (buttonPress2S b = true -> buttonPress1S b = true) /\
  (buttonPress1S b = true -> buttonPress b = true).

Definition counter_bounded (b : ClockButton) : Prop :=
  0 <= button1PressedCount b <= debounceCounter.

Definition release_exclusive (b : ClockButton) : Prop :=
  (length (releases_set b) <= 1)%nat.

(** Below the threshold no level flag is set. *)
Definition levels_idle (b : ClockButton) : Prop :=
  button1PressedCount b < debounceCounter -> levels b = (false, false, false, false).

Definition invariant (b : ClockButton) : Prop :=
  counter_bounded b /\ levels_nested b /\ release_exclusive b /\ levels_idle b.

(** Five consecutive pressed reads at time [t]: the shortest way to a
    debounced press. *)
Definition debounced_at (t : Z) : ClockButton :=
  run (replicate 5 (CheckButton 0 t)) initial.

(** Consecutive reads with the pin pressed, one per timestamp. *)
Definition pressed_reads (ts : list Z) : list call :=
  map (CheckButton 0) ts.

(** The one-shot release flags, as the tuple (pressed, 1s, 2s, 8s). *)
Definition release_flags (b : ClockButton) : bool * bool * bool * bool :=
  (buttonPressRelease b, buttonPressRelease1S b,
   buttonPressRelease2S b, buttonPressRelease8S b).

(** What a sequence of calls returns, first call first. *)
Fixpoint outputs (cs : list call) (b : ClockButton) : list (option bool) :=
  match cs with
  | [] => []
  | c :: cs' => fst (exec c b) :: outputs cs' (snd (exec c b))
  end.

End Button.

(** ** Transition *)

Module Engine.

Import CInt.

(** DisplayDefs.h: the display mode, set per digit. *)
Definition BLANKED : Z := 0.
Definition DIMMED : Z := 1.
Definition FADE : Z := 2.
Definition NORMAL : Z := 3.
Definition BLINK : Z := 4.
Definition SCROLL : Z := 5.
Definition BRIGHT : Z := 6.

(** The globals that Transition.h declares [extern]:
    [byte NumberArray[]], [byte displayType[]], [boolean scrollback]. *)
Record Display : Type := mkDisplay {
  NumberArray : list Z;
  displayType : list Z;
  scrollback : bool
}.

(** The private members of [class Transition]. *)
Record Transition : Type := mkTransition {
  _effectInDuration : Z;
  _effectOutDuration : Z;
  _holdDuration : Z;
  _started : Z;
  _end : Z;
  _regularDisplay : list Z;
  _alternateDisplay : list Z;
  _savedScrollback : bool;
  _savedDisplayType : list Z
}.

(** The engine object together with the globals it works on. *)
Definition state : Type := Transition * Display.

(** Field assignments. *)
Definition set_NumberArray (v : list Z) (g : Display) : Display :=
  mkDisplay v (displayType g) (scrollback g).
Definition set_displayType (v : list Z) (g : Display) : Display :=
  mkDisplay (NumberArray g) v (scrollback g).
Definition set_scrollback (v : bool) (g : Display) : Display :=
  mkDisplay (NumberArray g) (displayType g) v.

Definition set_started (v : Z) (t : Transition) : Transition :=
  mkTransition (_effectInDuration t) (_effectOutDuration t) (_holdDuration t)
    v (_end t) (_regularDisplay t) (_alternateDisplay t)
    (_savedScrollback t) (_savedDisplayType t).
Definition set_end (v : Z) (t : Transition) : Transition :=
  mkTransition (_effectInDuration t) (_effectOutDuration t) (_holdDuration t)
    (_started t) v (_regularDisplay t) (_alternateDisplay t)
    (_savedScrollback t) (_savedDisplayType t).
Definition set_regularDisplay (v : list Z) (t : Transition) : Transition :=
  mkTransition (_effectInDuration t) (_effectOutDuration t) (_holdDuration t)
    (_started t) (_end t) v (_alternateDisplay t)
    (_savedScrollback t) (_savedDisplayType t).
Definition set_alternateDisplay (v : list Z) (t : Transition) : Transition :=
  mkTransition (_effectInDuration t) (_effectOutDuration t) (_holdDuration t)
    (_started t) (_end t) (_regularDisplay t) v
    (_savedScrollback t) (_savedDisplayType t).
Definition set_savedScrollback (v : bool) (t : Transition) : Transition :=
  mkTransition (_effectInDuration t) (_effectOutDuration t) (_holdDuration t)
    (_started t) (_end t) (_regularDisplay t) (_alternateDisplay t)
    v (_savedDisplayType t).
Definition set_savedDisplayType (v : list Z) (t : Transition) : Transition :=
  mkTransition (_effectInDuration t) (_effectOutDuration t) (_holdDuration t)
    (_started t) (_end t) (_regularDisplay t) (_alternateDisplay t)
    (_savedScrollback t) v.

(** *** Arrays

    An array is the list of its elements.  Reading or writing outside an
    array is undefined in C; here an outside read gives 0 and an outside
    write does nothing. *)
Definition arr_get (a : list Z) (i : Z) : Z :=
  if i <? 0 then 0 else default 0 (a !! Z.to_nat i).

Definition arr_set (a : list Z) (i v : Z) : list Z :=
  if i <? 0 then a else <[Z.to_nat i := v]> a.

(** [memcpy(dst, src, n)] on byte arrays that both hold at least [n] bytes. *)
Definition memcpy (dst src : list Z) (n : nat) : list Z :=
  take n src ++ drop n dst.

(** *** Construction

    [Transition::Transition(effectInDuration, effectOutDuration,
    holdDuration)] with the member initialisers of Transition.h.
    [_savedScrollback] has no initialiser: its first value is whatever the
    storage holds, the argument [indeterminate]. *)
Definition new (effectInDuration effectOutDuration holdDuration : Z)
    (indeterminate : bool) : Transition :=
  mkTransition effectInDuration effectOutDuration holdDuration 0 0
    [0; 0; 0; 0; 0; 0] [0; 0; 0; 0; 0; 0] indeterminate
    [FADE; FADE; FADE; FADE; FADE; FADE].

(** *** Saving and restoring the display type *)

Definition saveCurrentDisplayType (s : state) : state :=
  let t := set_savedDisplayType
             (memcpy (_savedDisplayType (fst s)) (displayType (snd s)) 6) (fst s) in
  let t := set_savedScrollback (scrollback (snd s)) t in
  (t, set_scrollback false (snd s)).

Definition restoreCurrentDisplayType (s : state) : state :=
  let g := set_displayType
             (memcpy (displayType (snd s)) (_savedDisplayType (fst s)) 6) (snd s) in
  (fst s, set_scrollback (_savedScrollback (fst s)) g).

(** *** Sessions *)

(** [Transition::getEnd]: the two products are 16-bit [int] products; each
    operand is converted to [unsigned long] and the sum is taken modulo
    2^32. *)
Definition getEnd (t : Transition) : Z :=
  to_ulong (_started t + int_mul (_effectInDuration t) 2 + _holdDuration t
            + int_mul (_effectOutDuration t) 2).

Definition start (now : Z) (s : state) : state :=
  if _end (fst s) <? now then
    let t := set_started now (fst s) in
    let t := set_end (getEnd t) t in
    saveCurrentDisplayType (t, snd s)
  else s.

Definition isMessageOnDisplay (now : Z) (t : Transition) : bool :=
  now <? _end t.

(** *** The regular and the alternate values *)

Definition setRegularValues (s : state) : state :=
  (set_regularDisplay (memcpy (_regularDisplay (fst s)) (NumberArray (snd s)) 6) (fst s),
   snd s).

Definition setAlternateValues (s : state) : state :=
  (set_alternateDisplay (memcpy (_alternateDisplay (fst s)) (NumberArray (snd s)) 6) (fst s),
   snd s).

Definition loadRegularValues (s : state) : state :=
  (fst s,
   set_NumberArray (memcpy (NumberArray (snd s)) (_regularDisplay (fst s)) 6) (snd s)).

Definition loadAlternateValues (s : state) : state :=
  (fst s,
   set_NumberArray (memcpy (NumberArray (snd s)) (_alternateDisplay (fst s)) 6) (snd s)).

Definition updateRegularDisplaySeconds (seconds : Z) (t : Transition) : Transition :=
  let t := set_regularDisplay
             (arr_set (_regularDisplay t) 5 (to_byte (Z.rem seconds 10))) t in
  set_regularDisplay (arr_set (_regularDisplay t) 4 (to_byte (seconds ÷ 10))) t.

(** *** scroll

    One round of the loop of [Transition::scroll], for loop index [i]. *)
Definition scroll_step (count offset slope : Z) (copy : list Z)
    (g : Display) (i : Z) : Display :=
  let g :=
    if i <? count
    then set_displayType (arr_set (displayType g) (offset + i * slope) BLANKED) g
    else g in
  if i >=? count
  then set_NumberArray
         (arr_set (NumberArray g) (offset + i * slope)
                  (arr_get copy (offset + (i - count) * slope))) g
  else g.

(** [int Transition::scroll(byte count)].  [arg] is the value of the
    argument expression at the call; the parameter holds it converted to
    [byte].  [offset] and [slope] are bytes as well. *)
Definition scroll (arg : Z) (g : Display) : Z * Display :=
  let count := to_byte arg in
  let copy := memcpy [0; 0; 0; 0; 0; 0] (NumberArray g) 6 in
  let '(count, offset, slope) :=
    if count <? 0 then (to_byte (- count), 5, to_byte (-1)) else (count, 0, 1) in
  (count, foldl (scroll_step count offset slope copy) g (seqZ 0 6)).

(** *** scramble *)

(** [Transition::hash] on an [unsigned long]. *)
Definition hash (x : Z) : Z :=
  let x := to_ulong (Z.lxor (Z.shiftr x 16) x * 73244475) in
  let x := to_ulong (Z.lxor (Z.shiftr x 16) x * 73244475) in
  let x := Z.lxor (Z.shiftr x 16) x in
  x.

(** The value [hash(msCount / 20 + i) % 10] written to [NumberArray[i]];
    the [int] sum becomes the [unsigned long] argument of [hash]. *)
Definition scramble_digit (msCount i : Z) : Z :=
  to_byte (hash (to_ulong (msCount ÷ 20 + i)) mod 10).

Definition scramble_step (msCount : Z) (g : Display) (i : Z) : Display :=
  set_NumberArray (arr_set (NumberArray g) i (scramble_digit msCount i)) g.

(** [int Transition::scramble(int msCount, byte start, byte end)]; the two
    bounds arrive converted to [byte]. *)
Definition scramble (msCount start_arg end_arg : Z) (g : Display) : Z * Display :=
  let start := to_byte start_arg in
  let end_ := to_byte end_arg in
  (start, foldl (scramble_step msCount) g (seqZ start (end_ - start))).

(** *** The animation steppers

    [int msCount = now - _started]: the [unsigned long] difference,
    converted to [int]. *)
Definition msCount_of (now : Z) (t : Transition) : Z :=
  to_int (to_ulong (now - _started t)).

(** A stepper has no result ([None]) where the code's behaviour is
    undefined: a division by zero, or an access outside one of the
    buffers. *)
Definition has_six (a : list Z) : bool := (6 <=? length a)%nat.

(** [loadRegularValues()], [loadAlternateValues()] and
    [restoreCurrentDisplayType()] copy six bytes between two buffers. *)
Definition try_loadRegularValues (s : state) : option state :=
  if has_six (NumberArray (snd s)) && has_six (_regularDisplay (fst s))
  then Some (loadRegularValues s) else None.

Definition try_loadAlternateValues (s : state) : option state :=
  if has_six (NumberArray (snd s)) && has_six (_alternateDisplay (fst s))
  then Some (loadAlternateValues s) else None.

Definition try_restoreCurrentDisplayType (s : state) : option state :=
  if has_six (displayType (snd s)) && has_six (_savedDisplayType (fst s))
  then Some (restoreCurrentDisplayType s) else None.

(** [scroll(arg)]: it reads [NumberArray[0..5]] and writes
    [displayType[i]] for [i < count], [i < 6]. *)
Definition do_scroll (arg : Z) (s : state) : option state :=
  if has_six (NumberArray (snd s))
     && (Z.min (to_byte arg) 6 <=? Z.of_nat (length (displayType (snd s))))
  then Some (fst s, snd (scroll arg (snd s))) else None.

(** [scramble(msCount, start_arg, end_arg)]: it writes [NumberArray[i]] for
    [start <= i < end]. *)
Definition do_scramble (msCount start_arg end_arg : Z) (s : state) : option state :=
  if (to_byte start_arg <? to_byte end_arg)
     && (Z.of_nat (length (NumberArray (snd s))) <? to_byte end_arg)
  then None else Some (fst s, snd (scramble msCount start_arg end_arg (snd s))).

(** The four [int] expressions that the steppers pass on, with [d] one of
    the two effect durations:
    [-(msCount % d) * 6 / d - 1], [5 - (msCount % d) * 6 / d],
    [((msCount - hold) % d) * 6 / d + 1] and
    [((msCount - hold) % d) * 6 / d - 5]. *)
Definition scroll_out_count (msCount d : Z) : option Z :=
  r ← int_rem msCount d;
  q ← int_div (int_mul (int_neg r) 6) d;
  Some (int_sub q 1).

Definition entry_offset (msCount d : Z) : option Z :=
  r ← int_rem msCount d;
  q ← int_div (int_mul r 6) d;
  Some (int_sub 5 q).

Definition exit_offset (msCount hold d : Z) : option Z :=
  r ← int_rem (int_sub msCount hold) d;
  q ← int_div (int_mul r 6) d;
  Some (int_add q 1).

Definition scroll_back_count (msCount hold d : Z) : option Z :=
  r ← int_rem (int_sub msCount hold) d;
  q ← int_div (int_mul r 6) d;
  Some (int_sub q 5).

Definition scrollMsg (now : Z) (s : state) : option (bool * state) :=
  if now <? _end (fst s) then
    let t := fst s in
    let msCount := msCount_of now t in
    s' ← (if msCount <? _effectInDuration t then
            s1 ← try_loadRegularValues s;
            c ← scroll_out_count msCount (_effectInDuration t);
            do_scroll c s1
          else if msCount <? int_mul (_effectInDuration t) 2 then
            s1 ← try_loadAlternateValues s;
            c ← entry_offset msCount (_effectInDuration t);
            do_scroll c s1
          else if msCount <? int_add (int_mul (_effectInDuration t) 2) (_holdDuration t) then
            try_loadAlternateValues s
          else if msCount <? int_add (int_add (int_mul (_effectInDuration t) 2)
                                               (_holdDuration t))
                                      (_effectOutDuration t) then
            s1 ← try_loadAlternateValues s;
            c ← exit_offset msCount (_holdDuration t) (_effectOutDuration t);
            do_scroll c s1
          else if msCount <? int_add (int_add (int_mul (_effectInDuration t) 2)
                                               (_holdDuration t))
                                      (int_mul (_effectOutDuration t) 2) then
            s1 ← try_loadRegularValues s;
            c ← scroll_back_count msCount (_holdDuration t) (_effectOutDuration t);
            do_scroll c s1
          else Some s);
    Some (true, s')
  else Some (false, s).

Definition scrambleMsg (now : Z) (s : state) : option (bool * state) :=
  if now <? _end (fst s) then
    let t := fst s in
    let msCount := msCount_of now t in
    s' ← (if msCount <? _effectInDuration t then
            s1 ← try_loadRegularValues s;
            a ← entry_offset msCount (_effectInDuration t);
            do_scramble msCount a 6 s1
          else if msCount <? int_mul (_effectInDuration t) 2 then
            s1 ← try_loadAlternateValues s;
            b ← entry_offset msCount (_effectInDuration t);
            do_scramble msCount 0 b s1
          else if msCount <? int_add (int_mul (_effectInDuration t) 2) (_holdDuration t) then
            try_loadAlternateValues s
          else if msCount <? int_add (int_add (int_mul (_effectInDuration t) 2)
                                               (_holdDuration t))
                                      (_effectOutDuration t) then
            s1 ← try_loadAlternateValues s;
            b ← exit_offset msCount (_holdDuration t) (_effectOutDuration t);
            do_scramble msCount 0 b s1
          else if msCount <? int_add (int_add (int_mul (_effectInDuration t) 2)
                                               (_holdDuration t))
                                      (int_mul (_effectOutDuration t) 2) then
            s1 ← try_loadRegularValues s;
            a ← exit_offset msCount (_holdDuration t) (_effectOutDuration t);
            do_scramble msCount a 6 s1
          else Some s);
    Some (true, s')
  else Some (false, s).

Definition scrollInScrambleOut (now : Z) (s : state) : option (bool * state) :=
  if now <? _end (fst s) then
    let t := fst s in
    let msCount := msCount_of now t in
    s' ← (if msCount <? _effectInDuration t then
            s1 ← try_loadRegularValues s;
            c ← scroll_out_count msCount (_effectInDuration t);
            do_scroll c s1
          else if msCount <? int_mul (_effectInDuration t) 2 then
            s0 ← try_restoreCurrentDisplayType s;
            s1 ← try_loadAlternateValues s0;
            c ← entry_offset msCount (_effectInDuration t);
            do_scroll c s1
          else if msCount <? int_add (int_mul (_effectInDuration t) 2) (_holdDuration t) then
            try_loadAlternateValues s
          else if msCount <? int_add (int_add (int_mul (_effectInDuration t) 2)
                                               (_holdDuration t))
                                      (_effectOutDuration t) then
            s1 ← try_loadAlternateValues s;
            b ← exit_offset msCount (_holdDuration t) (_effectOutDuration t);
            do_scramble msCount 0 b s1
          else if msCount <? int_add (int_add (int_mul (_effectInDuration t) 2)
                                               (_holdDuration t))
                                      (int_mul (_effectOutDuration t) 2) then
            s1 ← try_loadRegularValues s;
            a ← exit_offset msCount (_holdDuration t) (_effectOutDuration t);
            do_scramble msCount a 6 s1
          else Some s);
    Some (true, s')
  else Some (false, s).



(** A freshly constructed engine with the durations of the end-to-end
    example, on a display that shows 1..6 in NORMAL mode with scrollback on. *)
Definition fresh_engine : state :=
  (new 300 300 1000 false,
   mkDisplay [1; 2; 3; 4; 5; 6]
             [NORMAL; NORMAL; NORMAL; NORMAL; NORMAL; NORMAL] true).




End Engine.

(** * Properties *)

(** Split on every test the goal still branches on, keeping the
    arithmetic fact that each branch stands for. *)
Ltac split_ifs :=
  repeat match goal with
         | |- context [if ?a <? ?b then _ else _] => destruct (Z.ltb_spec a b)
         | |- context [if ?a >? ?b then _ else _] => destruct (Z.gtb_spec a b)
         | |- context [if ?a =? ?b then _ else _] => destruct (Z.eqb_spec a b)
         | |- context [if ?c then _ else _] => destruct c eqn:?
         end.

Module CIntFacts.

Import CInt.

Lemma to_ulong_range z : 0 <= to_ulong z < 4294967296.
Proof. unfold to_ulong. apply Z.mod_pos_bound. lia. Qed.

Lemma to_ulong_small z : 0 <= z < 4294967296 -> to_ulong z = z.
Proof. intros H. unfold to_ulong. apply Z.mod_small. exact H. Qed.

Lemma to_byte_range z : 0 <= to_byte z < 256.
Proof. unfold to_byte. apply Z.mod_pos_bound. lia. Qed.

Lemma to_byte_small z : 0 <= z < 256 -> to_byte z = z.
Proof. intros H. unfold to_byte. apply Z.mod_small. exact H. Qed.



End CIntFacts.

(** ** The button debouncer *)

Module ButtonProofs.

Import CInt Button.

(** Unfold the methods down to the record constructor. *)
Ltac button_unfold :=
  cbv [checkButton checkButtonInternal reset resetInternal
       isButtonPressedNow isButtonPressed
       isButtonPressedAndReleased isButtonPressedReleased1S
       isButtonPressedReleased2S isButtonPressedReleased8S
       set_count set_start set_wasReleased set_press
       set_release8S set_release2S set_release1S set_release
       heldMillis levels highest_level releases_set debounceCounter
       button1PressedCount button1PressStartMillis buttonWasReleased
       buttonPress8S buttonPress2S buttonPress1S buttonPress
       buttonPressRelease8S buttonPressRelease2S buttonPressRelease1S
       buttonPressRelease fst snd] in *.

Lemma invariant_initial : invariant initial.
Proof.
  unfold invariant, counter_bounded, levels_nested, release_exclusive,
    levels_idle, debounceCounter. cbn. repeat split; (lia || congruence).
Qed.

Lemma invariant_checkButton pin nowMillis b :
  invariant b -> invariant (checkButton pin nowMillis b).
Proof.
  destruct b as [cnt st wr p8 p2 p1 p r8 r2 r1 r].
  unfold invariant, counter_bounded, levels_nested, release_exclusive,
    levels_idle.
  button_unfold. intros (Hc & (H8 & H2 & H1) & Hr & Hi).
  destruct (pin =? 0).
  - destruct (Z.ltb_spec cnt 5) as [Hlt | Hge].
    + specialize (Hi Hlt). injection Hi as -> -> -> ->.
      destruct (Z.eqb_spec (cnt + 1) 5); cbv beta iota;
        repeat split; try (lia || congruence).
    + split_ifs; cbv beta iota; repeat split; try (lia || congruence).
  - destruct (Z.eqb_spec cnt 5); cbv beta iota.
    + destruct p8, p2, p1, p; cbn; repeat split; try (lia || congruence).
    + repeat split; try (lia || congruence).
Qed.

Lemma invariant_reset b : invariant b -> invariant (reset b).
Proof.
  intros _. unfold invariant, counter_bounded, levels_nested,
    release_exclusive, levels_idle, debounceCounter.
  button_unfold. cbn. repeat split; (lia || congruence).
Qed.

Lemma invariant_release_accessors b :
  invariant b ->
  invariant (snd (isButtonPressedAndReleased b)) /\
  invariant (snd (isButtonPressedReleased1S b)) /\
  invariant (snd (isButtonPressedReleased2S b)) /\
  invariant (snd (isButtonPressedReleased8S b)).
Proof.
  destruct b as [cnt st wr p8 p2 p1 p r8 r2 r1 r].
  unfold invariant, counter_bounded, levels_nested, release_exclusive,
    levels_idle.
  button_unfold. intros (Hc & Hn & Hr & Hi).
  destruct r8, r2, r1, r; cbn in *; repeat split; tauto || lia.
Qed.

Lemma invariant_exec c b : invariant b -> invariant (snd (exec c b)).
Proof.
  intros Hb.
  destruct (invariant_release_accessors b Hb) as (Hr & Hr1 & Hr2 & Hr8).
  destruct c; cbn [exec snd]; try assumption.
  - apply invariant_checkButton, Hb.
  - apply invariant_reset, Hb.
Qed.

Lemma invariant_run cs : forall b, invariant b -> invariant (run cs b).
Proof.
  induction cs as [| c cs IH]; intros b Hb; cbn [run].
  - exact Hb.
  - apply IH, invariant_exec, Hb.
Qed.

(** **** C9
    From the initial object, after any sequence of [checkButton], [reset]
    and accessor calls: the debounce counter lies in 0..5, the level flags
    are nested (8s implies 2s implies 1s implies pressed), at most one
    one-shot release flag is set, and a further pressed read moves the
    counter to [min (counter + 1) 5], so it saturates at the threshold. *)
Theorem C9_invariants_preserved :
  forall (cs : list call) (nowMillis : Z),
    let b := run cs initial in
    (0 <= button1PressedCount b <= 5) /\
    levels_nested b /\
    (length (releases_set b) <= 1)%nat /\
    button1PressedCount (checkButton 0 nowMillis b)
      = Z.min (button1PressedCount b + 1) debounceCounter.
Proof.
  intros cs nowMillis b.
  destruct (invariant_run cs initial invariant_initial) as (Hc & Hn & Hr & _).
  fold b in Hc, Hn, Hr. unfold counter_bounded, debounceCounter in *.
  repeat split; try (apply Hc || apply Hn || apply Hr).
  destruct b as [cnt st wr p8 p2 p1 p r8 r2 r1 r]. button_unfold. cbn in Hc.
  destruct (Z.ltb_spec cnt 5); cbn.
  - destruct (Z.eqb_spec (cnt + 1) 5); cbn; lia.
  - split_ifs; cbn; lia.
Qed.

(** **** C2 (as amended)
    A [checkButton] call with the pin pressed while the counter is at the
    threshold sets the level flags from [held = now - pressStart]
    (unsigned 32-bit): [held <= 1000] gives exactly pressed;
    [1000 < held <= 2000] exactly pressed and 1s; [2000 < held <= 8000]
    exactly pressed, 1s and 2s; [held > 8000] all four. *)
Theorem C2_levels_by_held_duration :
  forall (b : ClockButton) (nowMillis : Z),
    button1PressedCount b = debounceCounter ->
    let held := (nowMillis - button1PressStartMillis b) mod 4294967296 in
    let b' := checkButton 0 nowMillis b in
    (held <= 1000 -> levels b' = (true, false, false, false)) /\
    (1000 < held <= 2000 -> levels b' = (true, true, false, false)) /\
    (2000 < held <= 8000 -> levels b' = (true, true, true, false)) /\
    (8000 < held -> levels b' = (true, true, true, true)).
Proof.
  intros [cnt st wr p8 p2 p1 p r8 r2 r1 r] nowMillis Hcnt held b'.
  cbn in Hcnt. subst cnt b'. button_unfold.
  unfold heldMillis, to_ulong, debounceCounter. cbn. fold held.
  destruct (Z.gtb_spec held 8000), (Z.gtb_spec held 2000),
    (Z.gtb_spec held 1000); cbn; repeat split; intros; (reflexivity || lia).
Qed.

Lemma C2_levels_by_held_duration_witness :
  button1PressedCount (debounced_at 0) = debounceCounter /\
  levels (checkButton 0 1500 (debounced_at 0)) = (true, true, false, false).
Proof.
  split; [reflexivity |].
  apply (C2_levels_by_held_duration (debounced_at 0) 1500 eq_refl).
  vm_compute. split; [reflexivity | discriminate].
Defined.

(** The claim as first stated puts the boundaries at [1000 <= held],
    [2000 <= held], [8000 <= held].  A debounced press that started at
    time 0 and is checked at time 1000 has [held = 1000]; the code sets
    only pressed, not pressed and 1s. *)
Lemma C2_counterexample_held_1000 :
  button1PressedCount (debounced_at 0) = debounceCounter /\
  heldMillis 1000 (debounced_at 0) = 1000 /\
  levels (checkButton 0 1000 (debounced_at 0)) = (true, false, false, false) /\
  levels (checkButton 0 1000 (debounced_at 0)) <> (true, true, false, false).
Proof. repeat split; (reflexivity || discriminate). Qed.

(** **** C3 (as amended)
    A [checkButton] call with the pin released while the counter is at the
    threshold leaves set exactly the one-shot release flag of the highest
    level flag that was true (8s > 2s > 1s > pressed), and none when no
    level flag was true; it clears all level flags and resets the counter
    to 0.  Each release accessor, called twice in a row, returns false the
    second time. *)
Theorem C3_release_tick :
  forall (b : ClockButton) (pin nowMillis : Z),
    button1PressedCount b = debounceCounter ->
    pin <> 0 ->
    let b' := checkButton pin nowMillis b in
    releases_set b' = match highest_level b with Some t => [t] | None => [] end /\
    levels b' = (false, false, false, false) /\
    button1PressedCount b' = 0 /\
    (forall b0, fst (isButtonPressedAndReleased (snd (isButtonPressedAndReleased b0))) = false) /\
    (forall b0, fst (isButtonPressedReleased1S (snd (isButtonPressedReleased1S b0))) = false) /\
    (forall b0, fst (isButtonPressedReleased2S (snd (isButtonPressedReleased2S b0))) = false) /\
    (forall b0, fst (isButtonPressedReleased8S (snd (isButtonPressedReleased8S b0))) = false).
Proof.
  intros [cnt st wr p8 p2 p1 p r8 r2 r1 r] pin nowMillis Hcnt Hpin b'.
  cbn in Hcnt. subst cnt b'. button_unfold.
  destruct (Z.eqb_spec pin 0) as [? | _]; [contradiction |]. cbn.
  repeat split.
  - destruct p8, p2, p1, p; reflexivity.
  - intros [? ? ? ? ? ? ? ? ? ? []]; reflexivity.
  - intros [? ? ? ? ? ? ? ? ? [] ?]; reflexivity.
  - intros [? ? ? ? ? ? ? ? [] ? ?]; reflexivity.
  - intros [? ? ? ? ? ? ? [] ? ? ?]; reflexivity.
Qed.

Lemma C3_release_tick_witness :
  button1PressedCount (checkButton 0 1500 (debounced_at 0)) = debounceCounter /\
  1 <> 0 /\
  releases_set (checkButton 1 1600 (checkButton 0 1500 (debounced_at 0))) = [T1S].
Proof.
  split; [reflexivity |]. split; [discriminate |].
  apply (C3_release_tick (checkButton 0 1500 (debounced_at 0)) 1 1600 eq_refl).
  discriminate.
Defined.

(** The claim as first stated has exactly one release flag set on every
    release that ends a debounced press.  After five pressed reads the
    counter is at the threshold and no level flag is set yet; a released
    read then sets no release flag. *)
Lemma C3_counterexample_release_after_threshold :
  button1PressedCount (debounced_at 0) = debounceCounter /\
  levels (debounced_at 0) = (false, false, false, false) /\
  releases_set (checkButton 1 0 (debounced_at 0)) = [] /\
  length (releases_set (checkButton 1 0 (debounced_at 0))) <> 1%nat.
Proof. repeat split; (reflexivity || discriminate). Qed.

(** **** C10
    On the pressed read that takes the counter from 4 to the threshold,
    only the press-start time is recorded: no level flag is set,
    [isButtonPressedNow] is true and [isButtonPressed] is false.  The next
    pressed read sets the pressed flag; a released read instead sets no
    release flag. *)
Theorem C10_threshold_tick_sets_no_level :
  forall (cs : list call) (nowMillis : Z),
    let b := run cs initial in
    button1PressedCount b = debounceCounter - 1 ->
    let b1 := checkButton 0 nowMillis b in
    button1PressedCount b1 = debounceCounter /\
    button1PressStartMillis b1 = nowMillis /\
    levels b1 = (false, false, false, false) /\
    isButtonPressedNow b1 = true /\
    isButtonPressed b1 = false /\
    (forall now2, isButtonPressed (checkButton 0 now2 b1) = true) /\
    (forall pin now2, pin <> 0 -> releases_set (checkButton pin now2 b1) = []).
Proof.
  intros cs nowMillis b Hcnt b1.
  destruct (invariant_run cs initial invariant_initial) as (_ & _ & _ & Hi).
  fold b in Hi. unfold levels_idle in Hi.
  assert (Hl : levels b = (false, false, false, false))
    by (apply Hi; rewrite Hcnt; unfold debounceCounter; lia).
  clearbody b. subst b1.
  destruct b as [cnt st wr p8 p2 p1 p r8 r2 r1 r].
  button_unfold. assert (cnt = 4) as -> by lia. injection Hl as -> -> -> ->.
  repeat split; try (split_ifs; cbv beta iota; first [reflexivity | lia]).
  - intros now2. split_ifs; cbv beta iota; first [reflexivity | lia].
  - intros pin now2 Hpin. split_ifs; cbv beta iota; first [reflexivity | lia].
Qed.

Lemma C10_threshold_tick_sets_no_level_witness :
  button1PressedCount (run (replicate 4 (CheckButton 0 7)) initial) = debounceCounter - 1 /\
  isButtonPressedNow (checkButton 0 9 (run (replicate 4 (CheckButton 0 7)) initial)) = true /\
  isButtonPressed (checkButton 0 9 (run (replicate 4 (CheckButton 0 7)) initial)) = false.
Proof.
  split; [reflexivity |].
  destruct (C10_threshold_tick_sets_no_level (replicate 4 (CheckButton 0 7)) 9 eq_refl)
    as (_ & _ & _ & Hnow & Hpressed & _).
  split; [exact Hnow | exact Hpressed].
Defined.

End ButtonProofs.

(** ** The transition engine *)

Module EngineProofs.

Import CInt Engine.

(** A list of six elements, spelled out. *)
Ltac six l H :=
  do 6 (let x := fresh "x" in destruct l as [| x l]; [discriminate H |]);
  destruct l; [clear H | discriminate H].

Ltac engine_unfold :=
  cbv [start saveCurrentDisplayType restoreCurrentDisplayType
       isMessageOnDisplay getEnd
       set_started set_end set_savedScrollback set_savedDisplayType
       set_NumberArray set_displayType set_scrollback
       fst snd NumberArray displayType scrollback
       _effectInDuration _effectOutDuration _holdDuration _started _end
       _regularDisplay _alternateDisplay _savedScrollback _savedDisplayType] in *.

(** *** scroll *)




(** **** C1
    [scroll] evaluated at the count -2 on the digits 1..6: the digits stay
    where they are and every slot is blanked, where a shift by two
    positions towards the lower indices with two blanked slots is
    described. *)
Theorem C1_scroll_negative_count_blanks_all :
  scroll (-2) (mkDisplay [1; 2; 3; 4; 5; 6]
                         [NORMAL; NORMAL; NORMAL; NORMAL; NORMAL; NORMAL] false)
  = (254, mkDisplay [1; 2; 3; 4; 5; 6]
                    [BLANKED; BLANKED; BLANKED; BLANKED; BLANKED; BLANKED] false).
Proof. reflexivity. Qed.

(** The two concrete cases of the description that the code meets:
    [scroll(2)] on 1..6 and [scroll(0)]. *)
Example scroll_2_example :
  snd (scroll 2 (mkDisplay [1; 2; 3; 4; 5; 6]
                           [NORMAL; NORMAL; NORMAL; NORMAL; NORMAL; NORMAL] false))
  = mkDisplay [1; 2; 1; 2; 3; 4]
              [BLANKED; BLANKED; NORMAL; NORMAL; NORMAL; NORMAL] false.
Proof. reflexivity. Qed.

(** [scrollMsg] passes such a negative count in its first phase: 100 ms
    into a session begun at time 1 with 1..6 as the regular values, the
    argument is [-(99 % 300) * 6 / 300 - 1 = -2], and the display is blanked
    with the digits in place. *)
Example scrollMsg_first_phase_example :
  scrollMsg 100 (start 1 (setRegularValues fresh_engine))
  = Some (true,
          (fst (start 1 (setRegularValues fresh_engine)),
           mkDisplay [1; 2; 3; 4; 5; 6]
                     [BLANKED; BLANKED; BLANKED; BLANKED; BLANKED; BLANKED] false)).
Proof. reflexivity. Qed.

(** *** Sessions *)

(** What [start] does when the stored end lies strictly before [now]. *)
Lemma start_begins_session (now : Z) (s : state) :
  _end (fst s) < now ->
  let s' := start now s in
  _started (fst s') = now /\
  _end (fst s') = to_ulong (now + int_mul (_effectInDuration (fst s)) 2
                            + _holdDuration (fst s)
                            + int_mul (_effectOutDuration (fst s)) 2) /\
  _savedDisplayType (fst s')
    = memcpy (_savedDisplayType (fst s)) (displayType (snd s)) 6 /\
  _savedScrollback (fst s') = scrollback (snd s) /\
  scrollback (snd s') = false /\
  displayType (snd s') = displayType (snd s) /\
  NumberArray (snd s') = NumberArray (snd s) /\
  _regularDisplay (fst s') = _regularDisplay (fst s) /\
  _alternateDisplay (fst s') = _alternateDisplay (fst s) /\
  _effectInDuration (fst s') = _effectInDuration (fst s) /\
  _effectOutDuration (fst s') = _effectOutDuration (fst s) /\
  _holdDuration (fst s') = _holdDuration (fst s).
Proof.
  intros Hlt s'. subst s'. destruct s as [[] []]. engine_unfold.
  split_ifs; [| lia]. repeat split.
Qed.

(** When the stored end equals [now], the guard [_end < now] fails. *)
Lemma start_at_end (s : state) : start (_end (fst s)) s = s.
Proof. unfold start. rewrite Z.ltb_irrefl. reflexivity. Qed.

(** *** The steppers' arithmetic *)









(** *** Where the buffer accesses are in range *)





(** *** The steppers in exact arithmetic

    With [durations_ok] and [six_slots] every stepper call during a session
    has a result, and the result is the one that the unbounded expressions
    give. *)








(** **** C4
    [start] evaluated where the stored end equals [now].  On the freshly
    constructed engine no message is on display at time 0, and [start 0]
    changes nothing: the end stays 0, the display types are not saved and
    scrollback stays on.  Likewise, after a session from 1 to 2201,
    [start 2201] leaves [started] at 1. *)
Theorem C4_start_at_end_changes_nothing :
  _end (fst fresh_engine) <= 0 /\
  isMessageOnDisplay 0 (fst fresh_engine) = false /\
  start 0 fresh_engine = fresh_engine /\
  _end (fst (start 0 fresh_engine)) = 0 /\
  _savedDisplayType (fst (start 0 fresh_engine)) = [FADE; FADE; FADE; FADE; FADE; FADE] /\
  scrollback (snd (start 0 fresh_engine)) = true /\
  _end (fst (start 1 fresh_engine)) = 2201 /\
  isMessageOnDisplay 2201 (fst (start 1 fresh_engine)) = false /\
  _started (fst (start 2201 (start 1 fresh_engine))) = 1.
Proof. repeat split; (reflexivity || discriminate). Qed.




(** **** C6
    While a message is on display ([now] before the stored end),
    [start now] returns the engine and the globals as they are: [started],
    the end, the saved display types and scrollback flag, both digit
    snapshots, and the live digits, display types and scrollback flag. *)
Theorem C6_start_while_running_is_noop :
  forall (s : state) (now : Z),
    now < _end (fst s) ->
    isMessageOnDisplay now (fst s) = true /\
    start now s = s.
Proof.
  intros s now Hlt. unfold isMessageOnDisplay, start. split.
  - apply Z.ltb_lt, Hlt.
  - destruct (Z.ltb_spec (_end (fst s)) now); [lia | reflexivity].
Qed.

Lemma C6_start_while_running_is_noop_witness :
  100 < _end (fst (start 1 fresh_engine)) /\
  start 100 (start 1 fresh_engine) = start 1 fresh_engine.
Proof.
  split; [reflexivity |].
  apply (C6_start_while_running_is_noop (start 1 fresh_engine) 100). reflexivity.
Defined.

(** *** Saving and restoring *)

Lemma memcpy_back (a b : list Z) (n : nat) :
  (n <= length a)%nat -> memcpy a (memcpy b a n) n = a.
Proof.
  intros Hn. unfold memcpy.
  rewrite take_app_le by (rewrite length_take; lia).
  rewrite take_take, Nat.min_id. apply take_drop.
Qed.

(** **** C8
    [saveCurrentDisplayType] followed by [restoreCurrentDisplayType] gives
    back the display types and the scrollback flag that were live before
    the save, although the save left the live scrollback flag cleared, and
    whatever the live display has become in between: with the saved state
    as the save left it, the restore on any live display [g'] puts the first
    six saved display types back in front of the slots of [g'] beyond the
    sixth, which on six-slot buffers is the whole buffer as it was. *)
Theorem C8_save_restore_roundtrip :
  forall (s : state) (g' : Display),
    (6 <= length (displayType (snd s)))%nat ->
    let saved := fst (saveCurrentDisplayType s) in
    let s' := restoreCurrentDisplayType (saved, g') in
    displayType (snd s')
      = take 6 (displayType (snd s)) ++ drop 6 (displayType g') /\
    (length (displayType (snd s)) = 6%nat -> length (displayType g') = 6%nat ->
     displayType (snd s') = displayType (snd s)) /\
    scrollback (snd s') = scrollback (snd s) /\
    NumberArray (snd s') = NumberArray g' /\
    scrollback (snd (saveCurrentDisplayType s)) = false /\
    displayType (snd (restoreCurrentDisplayType (saveCurrentDisplayType s)))
      = displayType (snd s) /\
    scrollback (snd (restoreCurrentDisplayType (saveCurrentDisplayType s)))
      = scrollback (snd s).
Proof.
  intros [[ein eout hold st en reg alt ssb sdt] [na dt sb]] [na' dt' sb'] Hlen saved s'.
  subst saved s'. engine_unfold.
  assert (Hgen : forall l : list Z,
             memcpy l (memcpy sdt dt 6) 6 = take 6 dt ++ drop 6 l).
  { intros l. unfold memcpy.
    rewrite take_app_le by (rewrite length_take; lia).
    rewrite take_take, Nat.min_id. reflexivity. }
  repeat split.
  - apply Hgen.
  - intros H6 H6'. rewrite Hgen.
    rewrite take_ge by lia. rewrite drop_ge by lia. apply app_nil_r.
  - rewrite Hgen. apply take_drop.
Qed.

Lemma C8_save_restore_roundtrip_witness :
  (6 <= length (displayType (snd fresh_engine)))%nat /\
  displayType
    (snd (restoreCurrentDisplayType
            (fst (saveCurrentDisplayType fresh_engine),
             mkDisplay [0; 0; 0; 0; 0; 0]
                       [BLANKED; BLANKED; BLANKED; BLANKED; BLANKED; BLANKED] false)))
  = [NORMAL; NORMAL; NORMAL; NORMAL; NORMAL; NORMAL] /\
  scrollback
    (snd (restoreCurrentDisplayType
            (fst (saveCurrentDisplayType fresh_engine),
             mkDisplay [0; 0; 0; 0; 0; 0]
                       [BLANKED; BLANKED; BLANKED; BLANKED; BLANKED; BLANKED] false)))
  = true.
Proof.
  assert (Hlen : (6 <= length (displayType (snd fresh_engine)))%nat) by (cbn; lia).
  split; [exact Hlen |].
  destruct (C8_save_restore_roundtrip fresh_engine
              (mkDisplay [0; 0; 0; 0; 0; 0]
                         [BLANKED; BLANKED; BLANKED; BLANKED; BLANKED; BLANKED] false)
              Hlen) as (_ & Hd & Hs & _).
  split; [apply Hd; reflexivity | exact Hs].
Defined.

(** *** scramble *)

Lemma display_eq (g1 g2 : Display) :
  NumberArray g1 = NumberArray g2 ->
  displayType g1 = displayType g2 ->
  scrollback g1 = scrollback g2 ->
  g1 = g2.
Proof. destruct g1, g2. cbn. intros -> -> ->. reflexivity. Qed.

Lemma length_arr_set (a : list Z) (i v : Z) : length (arr_set a i v) = length a.
Proof. unfold arr_set. destruct (i <? 0); [reflexivity | apply length_insert]. Qed.

(** The loop of [scramble] touches the digits only, and moves none. *)
Lemma scramble_fold_frame (e : Z) (l : list Z) :
  forall g : Display,
    displayType (foldl (scramble_step e) g l) = displayType g /\
    scrollback (foldl (scramble_step e) g l) = scrollback g /\
    length (NumberArray (foldl (scramble_step e) g l)) = length (NumberArray g).
Proof.
  induction l as [| i l IH]; intros g; cbn [foldl].
  - repeat split.
  - destruct (IH (scramble_step e g i)) as (Hd & Hs & Hl).
    rewrite Hd, Hs, Hl. unfold scramble_step. cbn.
    repeat split. apply length_arr_set.
Qed.

(** The digits after [k] rounds of the loop that begin at index [a]. *)
Lemma scramble_fold_lookup (e : Z) (k : nat) :
  forall (a : Z) (g : Display) (i : nat),
    0 <= a ->
    a + Z.of_nat k <= Z.of_nat (length (NumberArray g)) ->
    NumberArray (foldl (scramble_step e) g (seqZ a (Z.of_nat k))) !! i
      = if bool_decide (a <= Z.of_nat i < a + Z.of_nat k)
        then Some (scramble_digit e (Z.of_nat i))
        else NumberArray g !! i.
Proof.
  induction k as [| k IH]; intros a g i Ha Hlen.
  - cbn. case_bool_decide; [lia | reflexivity].
  - rewrite seqZ_cons by lia. cbn [foldl].
    replace (Z.pred (Z.of_nat (S k))) with (Z.of_nat k) by lia.
    rewrite IH; [| lia | unfold scramble_step; cbn; rewrite length_arr_set; lia].
    unfold scramble_step, arr_set. cbn.
    destruct (Z.ltb_spec a 0); [lia |].
    repeat case_bool_decide; try lia; try reflexivity.
    + assert (i = Z.to_nat a) as -> by lia.
      rewrite list_lookup_insert_eq by lia.
      rewrite Z2Nat.id by lia. reflexivity.
    + rewrite list_lookup_insert_ne by lia. reflexivity.
Qed.

Lemma scramble_digit_value (e i : Z) :
  scramble_digit e i = hash (to_ulong (e ÷ 20 + i)) mod 10 /\
  0 <= scramble_digit e i <= 9.
Proof.
  unfold scramble_digit.
  pose proof (Z.mod_pos_bound (hash (to_ulong (e ÷ 20 + i))) 10 ltac:(lia)).
  rewrite CIntFacts.to_byte_small by lia. split; [reflexivity | lia].
Qed.

(** **** C7
    For window bounds [0 <= start <= end_ <= 6] on a six-digit buffer,
    [scramble e start end_] sets every digit [i] with [start <= i < end_]
    to [hash (e / 20 + i) mod 10], a value in 0..9, and leaves every other
    digit, the display types and the scrollback flag as they were; a
    second call with the same arguments changes nothing further. *)
Theorem C7_scramble_window :
  forall (e start end_ : Z) (g : Display),
    0 <= start -> start <= end_ -> end_ <= 6 ->
    length (NumberArray g) = 6%nat ->
    let g' := snd (scramble e start end_ g) in
    (forall i : nat,
        NumberArray g' !! i
          = if bool_decide (start <= Z.of_nat i < end_)
            then Some (hash (to_ulong (e ÷ 20 + Z.of_nat i)) mod 10)
            else NumberArray g !! i) /\
    (forall i : Z, 0 <= hash (to_ulong (e ÷ 20 + i)) mod 10 <= 9) /\
    length (NumberArray g') = 6%nat /\
    displayType g' = displayType g /\
    scrollback g' = scrollback g /\
    snd (scramble e start end_ g') = g'.
Proof.
  intros e start end_ g H0 Hse He6 Hlen g'.
  assert (Hlookup : forall h : Display,
             length (NumberArray h) = 6%nat ->
             forall i : nat,
               NumberArray (snd (scramble e start end_ h)) !! i
               = if bool_decide (start <= Z.of_nat i < end_)
                 then Some (hash (to_ulong (e ÷ 20 + Z.of_nat i)) mod 10)
                 else NumberArray h !! i).
  { intros h Hh i. unfold scramble. cbn [snd].
    rewrite !CIntFacts.to_byte_small by lia.
    replace (end_ - start) with (Z.of_nat (Z.to_nat (end_ - start))) by lia.
    rewrite scramble_fold_lookup by lia.
    destruct (scramble_digit_value e (Z.of_nat i)) as (-> & _).
    repeat case_bool_decide; (lia || reflexivity). }
  assert (Hframe : forall h : Display,
             displayType (snd (scramble e start end_ h)) = displayType h /\
             scrollback (snd (scramble e start end_ h)) = scrollback h /\
             length (NumberArray (snd (scramble e start end_ h)))
               = length (NumberArray h)).
  { intros h. unfold scramble. cbn [snd]. apply scramble_fold_frame. }
  destruct (Hframe g) as (Hd & Hs & Hl). fold g' in Hd, Hs, Hl.
  assert (Hlen' : length (NumberArray g') = 6%nat) by (rewrite Hl; exact Hlen).
  split; [exact (Hlookup g Hlen) |].
  split.
  { intros i.
    pose proof (Z.mod_pos_bound (hash (to_ulong (e ÷ 20 + i))) 10 ltac:(lia)). lia. }
  split; [exact Hlen' |]. split; [exact Hd |]. split; [exact Hs |].
  destruct (Hframe g') as (Hd2 & Hs2 & _).
  apply display_eq; [| exact Hd2 | exact Hs2].
  apply list_eq. intros i. rewrite (Hlookup g' Hlen').
  case_bool_decide; [| reflexivity].
  unfold g' at 1. rewrite (Hlookup g Hlen).
  case_bool_decide; [reflexivity | lia].
Qed.

(** [scramble(e, 2, 5)]: positions 2, 3 and 4 are written, positions 0, 1
    and 5 keep their digits. *)
Lemma C7_scramble_window_witness :
  0 <= 2 /\ 2 <= 5 /\ 5 <= 6 /\
  length (NumberArray (snd fresh_engine)) = 6%nat /\
  displayType (snd (scramble 100 2 5 (snd fresh_engine)))
    = displayType (snd fresh_engine).
Proof.
  assert (Ha : 0 <= 2) by discriminate.
  assert (Hb : 2 <= 5) by discriminate.
  assert (Hc : 5 <= 6) by discriminate.
  repeat (split; [assumption || reflexivity |]).
  apply (C7_scramble_window 100 2 5 (snd fresh_engine) Ha Hb Hc eq_refl).
Defined.

Example scramble_2_5_example :
  NumberArray (snd (scramble 100 2 5 (snd fresh_engine))) = [1; 2; 3; 1; 7; 6].
Proof. reflexivity. Qed.

End EngineProofs.

(** ** More on the button debouncer *)

Module ButtonExtras.

Import CInt Button ButtonProofs.

Ltac button_unfold_more :=
  cbv [release_flags] in *; button_unfold.

Lemma run_app (cs1 cs2 : list call) :
  forall b, run (cs1 ++ cs2) b = run cs2 (run cs1 b).
Proof.
  induction cs1 as [| c cs1 IH]; intros b; cbn [run app]; [reflexivity | apply IH].
Qed.

(** Pressed reads that stay below the threshold only count. *)
Lemma pressed_reads_below (ts : list Z) :
  forall b,
    0 <= button1PressedCount b ->
    button1PressedCount b + Z.of_nat (length ts) < debounceCounter ->
    button1PressedCount (run (pressed_reads ts) b)
      = button1PressedCount b + Z.of_nat (length ts) /\
    levels (run (pressed_reads ts) b) = levels b /\
    release_flags (run (pressed_reads ts) b) = release_flags b /\
    button1PressStartMillis (run (pressed_reads ts) b) = button1PressStartMillis b.
Proof.
  induction ts as [| t ts IH]; intros b H0 Hlt.
  - cbn. repeat split. lia.
  - cbn [pressed_reads map run exec snd length] in *.
    fold (pressed_reads ts).
    assert (Hstep : button1PressedCount (checkButton 0 t b) = button1PressedCount b + 1 /\
                    levels (checkButton 0 t b) = levels b /\
                    release_flags (checkButton 0 t b) = release_flags b /\
                    button1PressStartMillis (checkButton 0 t b) = button1PressStartMillis b).
    { destruct b as [cnt st wr p8 p2 p1 p r8 r2 r1 r]. button_unfold_more.
      split_ifs; cbv beta iota; repeat split; lia. }
    destruct Hstep as (Hc & Hl & Hr & Hs).
    destruct (IH (checkButton 0 t b)) as (Hc' & Hl' & Hr' & Hs'); [lia | lia |].
    rewrite Hc', Hl', Hr', Hs', Hc, Hl, Hr, Hs. repeat split. lia.
Qed.

(** **** X1
    A press that is released before the counter reaches the threshold
    leaves no trace: after fewer pressed reads than it takes to reach 5,
    a released read leaves the release flags as they were, with the counter
    at 0 and no level flag set. *)
Theorem X1_short_press_fires_nothing :
  forall (b : ClockButton) (ts : list Z) (pin nowMillis : Z),
    0 <= button1PressedCount b ->
    button1PressedCount b + Z.of_nat (length ts) < debounceCounter ->
    pin <> 0 ->
    let b' := run (pressed_reads ts ++ [CheckButton pin nowMillis]) b in
    release_flags b' = release_flags b /\
    button1PressedCount b' = 0 /\
    levels b' = (false, false, false, false).
Proof.
  intros b ts pin nowMillis H0 Hlt Hpin b'. subst b'.
  rewrite run_app. cbn [run exec snd].
  destruct (pressed_reads_below ts b H0 Hlt) as (Hc & _ & Hr & _).
  rewrite <- Hr.
  destruct (run (pressed_reads ts) b) as [cnt st wr p8 p2 p1 p r8 r2 r1 r].
  button_unfold_more. split_ifs; cbv beta iota; repeat split; lia.
Qed.

Lemma X1_short_press_fires_nothing_witness :
  0 <= button1PressedCount initial /\
  button1PressedCount initial + Z.of_nat (length [10; 20; 30; 40]) < debounceCounter /\
  1 <> 0 /\
  release_flags (run (pressed_reads [10; 20; 30; 40] ++ [CheckButton 1 50]) initial)
    = release_flags initial.
Proof.
  assert (H0 : 0 <= button1PressedCount initial) by discriminate.
  assert (Hlt : button1PressedCount initial + Z.of_nat (length [10; 20; 30; 40])
                < debounceCounter) by reflexivity.
  assert (Hpin : 1 <> 0) by discriminate.
  repeat (split; [assumption |]).
  apply (X1_short_press_fires_nothing initial [10; 20; 30; 40] 1 50 H0 Hlt Hpin).
Defined.

(** One pressed read: the counter moves up to the threshold and stays
    there, and at the threshold the pressed flag is set. *)
Lemma pressed_read_step (t : Z) (b : ClockButton) :
  0 <= button1PressedCount b <= 5 ->
  0 <= button1PressedCount (checkButton 0 t b) <= 5 /\
  (button1PressedCount b < 5 ->
   button1PressedCount (checkButton 0 t b) = button1PressedCount b + 1) /\
  (button1PressedCount b = 5 ->
   button1PressedCount (checkButton 0 t b) = 5 /\
   buttonPress (checkButton 0 t b) = true).
Proof.
  destruct b as [cnt st wr p8 p2 p1 p r8 r2 r1 r]. button_unfold.
  intros Hc. split_ifs; cbv beta iota; repeat split; lia.
Qed.

Lemma pressed_reads_reach (ts : list Z) :
  forall b,
    0 <= button1PressedCount b <= 5 ->
    let b' := run (pressed_reads ts) b in
    (5 <= button1PressedCount b + Z.of_nat (length ts) -> button1PressedCount b' = 5) /\
    (6 <= button1PressedCount b + Z.of_nat (length ts) -> buttonPress b' = true) /\
    (button1PressedCount b = 5 -> buttonPress b = true -> buttonPress b' = true).
Proof.
  induction ts as [| t ts IH]; intros b Hc b'; subst b'.
  - cbn. repeat split; intros; (lia || assumption).
  - cbn [pressed_reads map run exec snd length]. fold (pressed_reads ts).
    destruct (pressed_read_step t b Hc) as (Hc1 & Hlt & Heq).
    destruct (IH (checkButton 0 t b) Hc1) as (I5 & I6 & Ikeep).
    destruct (Z.lt_ge_cases (button1PressedCount b) 5) as [Hb | Hb].
    + specialize (Hlt Hb). repeat split; intros.
      * apply I5. lia.
      * apply I6. lia.
      * lia.
    + assert (Hb5 : button1PressedCount b = 5) by lia.
      destruct (Heq Hb5) as (Hc5 & Hp).
      repeat split; intros.
      * apply I5. lia.
      * apply Ikeep; assumption.
      * apply Ikeep; assumption.
Qed.

(** **** X2
    Enough consecutive pressed reads always debounce: from a counter in
    0..5, reads that bring counter plus reads to 5 make [isButtonPressedNow]
    true, and one more read makes [isButtonPressed] true, whatever the
    timestamps are. *)
Theorem X2_consecutive_presses_debounce :
  forall (b : ClockButton) (ts : list Z),
    0 <= button1PressedCount b <= 5 ->
    5 <= button1PressedCount b + Z.of_nat (length ts) ->
    isButtonPressedNow (run (pressed_reads ts) b) = true /\
    (6 <= button1PressedCount b + Z.of_nat (length ts) ->
     isButtonPressed (run (pressed_reads ts) b) = true).
Proof.
  intros b ts Hc H5.
  destruct (pressed_reads_reach ts b Hc) as (I5 & I6 & _).
  unfold isButtonPressedNow, isButtonPressed, debounceCounter.
  rewrite (I5 H5). split; [reflexivity | exact I6].
Qed.

Lemma X2_consecutive_presses_debounce_witness :
  0 <= button1PressedCount initial <= 5 /\
  5 <= button1PressedCount initial + Z.of_nat (length [3; 1; 4; 1; 5; 9]) /\
  isButtonPressedNow (run (pressed_reads [3; 1; 4; 1; 5; 9]) initial) = true.
Proof.
  assert (Hc : 0 <= button1PressedCount initial <= 5) by (split; discriminate).
  assert (H5 : 5 <= button1PressedCount initial + Z.of_nat (length [3; 1; 4; 1; 5; 9]))
    by discriminate.
  split; [exact Hc |]. split; [exact H5 |].
  destruct (X2_consecutive_presses_debounce initial [3; 1; 4; 1; 5; 9] Hc H5)
    as (Hnow & _).
  exact Hnow.
Defined.

(** The held time is the true elapsed time even when the millisecond
    clock has wrapped around since the press began. *)
Lemma held_across_wrap (start d : Z) :
  0 <= d < 4294967296 ->
  to_ulong (to_ulong (start + d) - start) = d.
Proof.
  intros Hd. unfold to_ulong.
  rewrite Zminus_mod_idemp_l.
  replace (start + d - start) with d by lia.
  apply Z.mod_small, Hd.
Qed.

(** **** X3
    The level flags follow the true elapsed time across a wrap of the
    32-bit millisecond clock: for a debounced press that began at [start], a
    pressed read [d] milliseconds later, at clock value
    [(start + d) mod 2^32], sets pressed, and sets 1s, 2s and 8s exactly when
    [d] exceeds 1000, 2000 and 8000. *)
Theorem X3_levels_across_clock_wrap :
  forall (b : ClockButton) (d : Z),
    button1PressedCount b = debounceCounter ->
    0 <= d < 4294967296 ->
    levels (checkButton 0 (to_ulong (button1PressStartMillis b + d)) b)
      = (true, 1000 <? d, 2000 <? d, 8000 <? d).
Proof.
  intros b d Hcnt Hd.
  pose proof (held_across_wrap (button1PressStartMillis b) d Hd) as Hheld.
  destruct b as [cnt st wr p8 p2 p1 p r8 r2 r1 r].
  button_unfold. subst cnt. rewrite Hheld.
  destruct (Z.ltb_spec 5 5); [lia |].
  destruct (Z.gtb_spec d 8000), (Z.gtb_spec d 2000), (Z.gtb_spec d 1000),
    (Z.ltb_spec 8000 d), (Z.ltb_spec 2000 d), (Z.ltb_spec 1000 d);
    try lia; reflexivity.
Qed.

Lemma X3_levels_across_clock_wrap_witness :
  button1PressedCount (debounced_at 4294967000) = debounceCounter /\
  0 <= 1500 < 4294967296 /\
  to_ulong (4294967000 + 1500) = 1204 /\
  levels (checkButton 0 1204 (debounced_at 4294967000)) = (true, true, false, false).
Proof.
  assert (Hd : 0 <= 1500 < 4294967296) by (split; [discriminate | reflexivity]).
  split; [reflexivity |]. split; [exact Hd |]. split; [reflexivity |].
  exact (X3_levels_across_clock_wrap (debounced_at 4294967000) 1500 eq_refl Hd).
Defined.

(** **** X4
    A debounced press that is read once more and then released fires
    exactly the release flag of the time held at that last pressed read:
    pressed up to 1000 ms, 1s above 1000 ms, 2s above 2000 ms, 8s above
    8000 ms; the counter is back at 0 and no level flag is left. *)
Theorem X4_press_then_release :
  forall (b : ClockButton) (nowMillis pin releaseMillis : Z),
    button1PressedCount b = debounceCounter ->
    pin <> 0 ->
    let held := (nowMillis - button1PressStartMillis b) mod 4294967296 in
    let b' := checkButton pin releaseMillis (checkButton 0 nowMillis b) in
    (held <= 1000 -> releases_set b' = [TPress]) /\
    (1000 < held <= 2000 -> releases_set b' = [T1S]) /\
    (2000 < held <= 8000 -> releases_set b' = [T2S]) /\
    (8000 < held -> releases_set b' = [T8S]) /\
    button1PressedCount b' = 0 /\
    levels b' = (false, false, false, false).
Proof.
  intros [cnt st wr p8 p2 p1 p r8 r2 r1 r] nowMillis pin releaseMillis Hcnt Hpin held b'.
  subst b'. button_unfold. subst cnt. unfold to_ulong. fold held.
  destruct (Z.eqb_spec pin 0); [contradiction |].
  destruct (Z.ltb_spec 5 5); [lia |].
  destruct (Z.gtb_spec held 8000), (Z.gtb_spec held 2000), (Z.gtb_spec held 1000);
    cbv beta iota; repeat split; intros; (reflexivity || lia).
Qed.

Lemma X4_press_then_release_witness :
  button1PressedCount (debounced_at 100) = debounceCounter /\
  1 <> 0 /\
  releases_set (checkButton 1 2700 (checkButton 0 2600 (debounced_at 100))) = [T2S].
Proof.
  assert (Hpin : 1 <> 0) by discriminate.
  split; [reflexivity |]. split; [exact Hpin |].
  destruct (X4_press_then_release (debounced_at 100) 2600 1 2700 eq_refl Hpin)
    as (_ & _ & H2 & _).
  apply H2. split; [reflexivity | discriminate].
Defined.

(** **** X5
    [checkButton] writes the release flags on one path only, a released
    read with the counter at the threshold.  A pressed read, and a released
    read below the threshold, leave all four release flags as they are, so a
    release that was not read yet stays pending. *)
Theorem X5_release_flags_kept :
  forall (pin nowMillis : Z) (b : ClockButton),
    pin = 0 \/ button1PressedCount b <> debounceCounter ->
    release_flags (checkButton pin nowMillis b) = release_flags b.
Proof.
  intros pin nowMillis [cnt st wr p8 p2 p1 p r8 r2 r1 r] Hcase.
  button_unfold_more.
  split_ifs; cbv beta iota; try reflexivity; destruct Hcase; contradiction.
Qed.

Lemma X5_release_flags_kept_witness :
  release_flags
    (checkButton 0 900 (checkButton 1 800 (checkButton 0 700 (debounced_at 0))))
  = (true, false, false, false).
Proof.
  rewrite (X5_release_flags_kept 0 900
             (checkButton 1 800 (checkButton 0 700 (debounced_at 0)))
             (or_introl eq_refl)).
  reflexivity.
Defined.

(** Objects that no call can tell apart: equal counters and flags, and
    equal press-start times once the counter is at the threshold. *)
Lemma alike_exec (c : call) (b1 b2 : ClockButton) :
  button1PressedCount b1 = button1PressedCount b2 ->
  levels b1 = levels b2 ->
  release_flags b1 = release_flags b2 ->
  (5 <= button1PressedCount b1 ->
   button1PressStartMillis b1 = button1PressStartMillis b2) ->
  fst (exec c b1) = fst (exec c b2) /\
  button1PressedCount (snd (exec c b1)) = button1PressedCount (snd (exec c b2)) /\
  levels (snd (exec c b1)) = levels (snd (exec c b2)) /\
  release_flags (snd (exec c b1)) = release_flags (snd (exec c b2)) /\
  (5 <= button1PressedCount (snd (exec c b1)) ->
   button1PressStartMillis (snd (exec c b1))
     = button1PressStartMillis (snd (exec c b2))).
Proof.
  destruct b1 as [cnt st wr p8 p2 p1 p r8 r2 r1 r].
  destruct b2 as [cnt' st' wr' p8' p2' p1' p' r8' r2' r1' r'].
  button_unfold_more. intros <- Hl Hr Hst.
  injection Hl as <- <- <- <-. injection Hr as <- <- <- <-.
  destruct c; cbv [exec]; button_unfold_more;
    try (repeat split; (reflexivity || assumption)).
  - destruct (pin =? 0).
    + destruct (Z.ltb_spec cnt 5).
      * destruct (Z.eqb_spec (cnt + 1) 5); cbv beta iota;
          repeat split; intros; (reflexivity || lia).
      * rewrite <- (Hst ltac:(lia)).
        split_ifs; cbv beta iota; repeat split; intros; reflexivity.
    + destruct (Z.eqb_spec cnt 5); cbv beta iota.
      * destruct p8, p2, p1, p; cbv beta iota; repeat split; intros; lia.
      * repeat split; intros; lia.
  - repeat split; intros; lia.
  - destruct r; cbv beta iota; repeat split; assumption.
  - destruct r1; cbv beta iota; repeat split; assumption.
  - destruct r2; cbv beta iota; repeat split; assumption.
  - destruct r8; cbv beta iota; repeat split; assumption.
Qed.

Lemma alike_outputs (cs : list call) :
  forall b1 b2,
    button1PressedCount b1 = button1PressedCount b2 ->
    levels b1 = levels b2 ->
    release_flags b1 = release_flags b2 ->
    (5 <= button1PressedCount b1 ->
     button1PressStartMillis b1 = button1PressStartMillis b2) ->
    outputs cs b1 = outputs cs b2.
Proof.
  induction cs as [| c cs IH]; intros b1 b2 Hc Hl Hr Hst; cbn [outputs].
  - reflexivity.
  - destruct (alike_exec c b1 b2 Hc Hl Hr Hst) as (Ho & Hc' & Hl' & Hr' & Hst').
    rewrite Ho. f_equal. apply IH; assumption.
Qed.

(** **** X6
    [reset] forces the idle state: after it, every sequence of calls
    returns what it returns on a freshly constructed button, whatever the
    button went through before (the press-start time and
    [buttonWasReleased], which [reset] leaves alone, are never read before
    they are written again). *)
Theorem X6_reset_behaves_as_new :
  forall (b : ClockButton) (cs : list call),
    outputs cs (reset b) = outputs cs initial.
Proof.
  intros b cs. apply alike_outputs.
  - reflexivity.
  - reflexivity.
  - reflexivity.
  - destruct b. button_unfold. intros H. exfalso. revert H. apply Z.lt_nge. reflexivity.
Qed.

(** **** X7
    In every state reached from the initial object, a level flag is set
    only while the counter is at the threshold: whenever one of the
    [isButtonPressed] accessors is true, [isButtonPressedNow] is true. *)
Theorem X7_level_flag_implies_pressed_now :
  forall cs : list call,
    levels (run cs initial) <> (false, false, false, false) ->
    isButtonPressedNow (run cs initial) = true.
Proof.
  intros cs Hl.
  destruct (invariant_run cs initial invariant_initial) as (Hc & _ & _ & Hi).
  unfold counter_bounded, levels_idle, isButtonPressedNow, debounceCounter in *.
  apply Z.eqb_eq.
  destruct (Z.lt_ge_cases (button1PressedCount (run cs initial)) 5) as [Hlt | Hge].
  - elim Hl. apply Hi, Hlt.
  - lia.
Qed.

Lemma X7_level_flag_implies_pressed_now_witness :
  levels (run (pressed_reads [0; 1; 2; 3; 4; 5]) initial) <> (false, false, false, false) /\
  isButtonPressedNow (run (pressed_reads [0; 1; 2; 3; 4; 5]) initial) = true.
Proof.
  assert (Hl : levels (run (pressed_reads [0; 1; 2; 3; 4; 5]) initial)
               <> (false, false, false, false)) by discriminate.
  split; [exact Hl |].
  exact (X7_level_flag_implies_pressed_now (pressed_reads [0; 1; 2; 3; 4; 5]) Hl).
Defined.

End ButtonExtras.

(** ** More on the transition engine *)

Module EngineExtras.

Import CInt Engine EngineProofs.

(** *** What the loops keep *)



Lemma scramble_frame (e a b : Z) (g : Display) :
  displayType (snd (scramble e a b g)) = displayType g /\
  scrollback (snd (scramble e a b g)) = scrollback g /\
  length (NumberArray (snd (scramble e a b g))) = length (NumberArray g).
Proof. unfold scramble. cbn [snd]. apply scramble_fold_frame. Qed.

(** *** Elapsed time *)


Lemma memcpy_all (dst src : list Z) (n : nat) :
  length src = n -> length dst = n -> memcpy dst src n = src.
Proof.
  intros Hs Hd. unfold memcpy.
  rewrite take_ge by lia. rewrite drop_ge by lia. apply app_nil_r.
Qed.










(** *** scroll on its whole domain *)

(** **** X10
    For a count in 0..6 on six-slot buffers, [scroll] in closed form: the
    digits become the first [count] old digits followed by the first
    [6 - count] old digits (the buffer moved up by [count], the vacated
    slots keeping their digits), the display types become [count] times
    BLANKED followed by the old types from slot [count] on, and the count is
    returned. *)
Theorem X10_scroll_closed_form :
  forall (c : nat) (g : Display),
    (c <= 6)%nat ->
    length (NumberArray g) = 6%nat ->
    length (displayType g) = 6%nat ->
    scroll (Z.of_nat c) g
    = (Z.of_nat c,
       mkDisplay (take c (NumberArray g) ++ take (6 - c) (NumberArray g))
                 (replicate c BLANKED ++ drop c (displayType g))
                 (scrollback g)).
Proof.
  intros c [na dt sb] Hc Hn Hd. cbn in Hn, Hd. six na Hn. six dt Hd.
  do 7 (destruct c as [| c]; [reflexivity |]). lia.
Qed.

Lemma X10_scroll_closed_form_witness :
  snd (scroll 2 (snd fresh_engine))
  = mkDisplay [1; 2; 1; 2; 3; 4]
              [BLANKED; BLANKED; NORMAL; NORMAL; NORMAL; NORMAL] true.
Proof.
  assert (Hc : (2 <= 6)%nat) by (cbn; lia).
  exact (f_equal snd (X10_scroll_closed_form 2 (snd fresh_engine) Hc eq_refl eq_refl)).
Defined.

(** A round of the loop below the count only blanks its slot. *)
Lemma scroll_step_blank (c : Z) (copy : list Z) (g : Display) (i : Z) :
  i < c ->
  scroll_step c 0 1 copy g i
  = set_displayType (arr_set (displayType g) (0 + i * 1) BLANKED) g.
Proof.
  intros Hi. unfold scroll_step.
  destruct (Z.ltb_spec i c); [| lia].
  destruct (Z.geb_spec i c); [lia | reflexivity].
Qed.

(** **** X11
    Whenever the [byte] parameter of [scroll] holds 6 or more, which covers
    every negative argument down to -250, no digit moves and all six display
    types are set to BLANKED. *)
Theorem X11_scroll_large_count_blanks :
  forall (arg : Z) (g : Display),
    6 <= to_byte arg ->
    length (NumberArray g) = 6%nat ->
    length (displayType g) = 6%nat ->
    scroll arg g
    = (to_byte arg,
       mkDisplay (NumberArray g)
                 [BLANKED; BLANKED; BLANKED; BLANKED; BLANKED; BLANKED]
                 (scrollback g)).
Proof.
  intros arg [na dt sb] Hc Hn Hd. cbn in Hn, Hd. six na Hn. six dt Hd.
  unfold scroll. generalize dependent (to_byte arg). intros c Hc.
  destruct (Z.ltb_spec c 0); [lia |].
  change (seqZ 0 6) with [0; 1; 2; 3; 4; 5].
  cbn [foldl]. cbn [snd fst].
  rewrite !scroll_step_blank by lia. reflexivity.
Qed.

Lemma X11_scroll_large_count_blanks_witness :
  6 <= to_byte (-3) /\
  snd (scroll (-3) (snd fresh_engine))
  = mkDisplay [1; 2; 3; 4; 5; 6]
              [BLANKED; BLANKED; BLANKED; BLANKED; BLANKED; BLANKED] true.
Proof.
  assert (H : 6 <= to_byte (-3)) by discriminate.
  split; [exact H |].
  rewrite (X11_scroll_large_count_blanks (-3) (snd fresh_engine) H eq_refl eq_refl).
  reflexivity.
Defined.

(** *** scramble windows *)

Lemma scramble_lookup (e a b : Z) (g : Display) (i : nat) :
  0 <= a -> a <= b -> b <= 6 ->
  length (NumberArray g) = 6%nat ->
  NumberArray (snd (scramble e a b g)) !! i
  = if bool_decide (a <= Z.of_nat i < b)
    then Some (hash (to_ulong (e ÷ 20 + Z.of_nat i)) mod 10)
    else NumberArray g !! i.
Proof.
  intros Ha Hab Hb Hlen. unfold scramble. cbn [snd].
  rewrite !CIntFacts.to_byte_small by lia.
  replace (b - a) with (Z.of_nat (Z.to_nat (b - a))) by lia.
  rewrite scramble_fold_lookup by lia.
  destruct (scramble_digit_value e (Z.of_nat i)) as (-> & _).
  repeat case_bool_decide; (lia || reflexivity).
Qed.

(** **** X12
    A window whose end, as a byte, is not above its start is empty:
    [scramble] then returns the display exactly as it was, for every buffer
    length. *)
Theorem X12_scramble_empty_window :
  forall (e start_arg end_arg : Z) (g : Display),
    to_byte end_arg <= to_byte start_arg ->
    scramble e start_arg end_arg g = (to_byte start_arg, g).
Proof.
  intros e a b g Hle. unfold scramble.
  rewrite seqZ_nil by lia. reflexivity.
Qed.

Lemma X12_scramble_empty_window_witness :
  to_byte 3 <= to_byte 5 /\
  scramble 100 5 3 (snd fresh_engine) = (5, snd fresh_engine).
Proof.
  assert (H : to_byte 3 <= to_byte 5) by discriminate.
  split; [exact H |].
  exact (X12_scramble_empty_window 100 5 3 (snd fresh_engine) H).
Defined.

(** **** X13
    Adjacent windows compose: scrambling [a, b) and then [b, c) with the
    same time gives the display that scrambling [a, c) gives, since a
    written digit depends on the time and the position only. *)
Theorem X13_scramble_windows_compose :
  forall (e a b c : Z) (g : Display),
    0 <= a -> a <= b -> b <= c -> c <= 6 ->
    length (NumberArray g) = 6%nat ->
    snd (scramble e b c (snd (scramble e a b g))) = snd (scramble e a c g).
Proof.
  intros e a b c g Ha Hab Hbc Hc Hlen.
  destruct (scramble_frame e a b g) as (Hd1 & Hs1 & Hl1).
  destruct (scramble_frame e b c (snd (scramble e a b g))) as (Hd2 & Hs2 & _).
  destruct (scramble_frame e a c g) as (Hd3 & Hs3 & _).
  apply display_eq.
  - apply list_eq. intros i.
    rewrite scramble_lookup by (lia || (rewrite Hl1; exact Hlen)).
    rewrite (scramble_lookup e a b g) by (lia || exact Hlen).
    rewrite (scramble_lookup e a c g) by (lia || exact Hlen).
    repeat case_bool_decide; (lia || reflexivity).
  - rewrite Hd2, Hd1, Hd3. reflexivity.
  - rewrite Hs2, Hs1, Hs3. reflexivity.
Qed.

Lemma X13_scramble_windows_compose_witness :
  snd (scramble 100 3 6 (snd (scramble 100 1 3 (snd fresh_engine))))
  = snd (scramble 100 1 6 (snd fresh_engine)).
Proof.
  apply (X13_scramble_windows_compose 100 1 3 6 (snd fresh_engine));
    (discriminate || reflexivity).
Defined.

(** *** The phases *)










(** Why the second region is bounded by the [int] product: with
    effectIn = -20000 the product [effectIn * 2] is 25536 as an [int], and
    at [msCount = 100], which lies above the exact product -40000, the two
    steppers are both in their second phase and differ. *)
Example hybrid_region_example :
  let s := (mkTransition (-20000) 300 1000 0 50000
              [0; 0; 0; 0; 0; 0] [1; 2; 3; 4; 5; 6] false
              [FADE; FADE; FADE; FADE; FADE; FADE],
            mkDisplay [9; 9; 9; 9; 9; 9]
                      [NORMAL; NORMAL; NORMAL; NORMAL; NORMAL; NORMAL] true) in
  msCount_of 100 (fst s) = 100 /\
  int_mul (_effectInDuration (fst s)) 2 = 25536 /\
  scrollInScrambleOut 100 s <> scrambleMsg 100 s.
Proof. repeat split. discriminate. Qed.

(** **** X17
    [scrollInScrambleOut] is the hybrid of the other two: while [msCount] is
    below [effectIn] it does what [scrollMsg] does, and from the [int]
    product [effectIn * 2] on (hold and both exit phases), as well as once
    expired, it does what [scrambleMsg] does. *)
Theorem X17_hybrid_stepper :
  forall (now : Z) (s : state),
    (msCount_of now (fst s) < _effectInDuration (fst s) ->
     scrollInScrambleOut now s = scrollMsg now s) /\
    (_effectInDuration (fst s) <= msCount_of now (fst s) ->
     int_mul (_effectInDuration (fst s)) 2 <= msCount_of now (fst s) ->
     scrollInScrambleOut now s = scrambleMsg now s) /\
    (_end (fst s) <= now ->
     scrollInScrambleOut now s = scrambleMsg now s /\
     scrollInScrambleOut now s = scrollMsg now s).
Proof.
  intros now s. unfold scrollInScrambleOut, scrollMsg, scrambleMsg. cbv zeta.
  repeat split; intros;
    destruct (Z.ltb_spec now (_end (fst s))); try lia; try reflexivity;
    destruct (Z.ltb_spec (msCount_of now (fst s)) (_effectInDuration (fst s)));
    try lia; try reflexivity;
    destruct (Z.ltb_spec (msCount_of now (fst s)) (int_mul (_effectInDuration (fst s)) 2));
    try lia; reflexivity.
Qed.

Lemma X17_hybrid_stepper_witness :
  scrollInScrambleOut 100 (start 1 (setRegularValues fresh_engine))
    = scrollMsg 100 (start 1 (setRegularValues fresh_engine)) /\
  scrollInScrambleOut 1800 (start 1 (setRegularValues fresh_engine))
    = scrambleMsg 1800 (start 1 (setRegularValues fresh_engine)).
Proof.
  destruct (X17_hybrid_stepper 100 (start 1 (setRegularValues fresh_engine)))
    as (H1 & _).
  destruct (X17_hybrid_stepper 1800 (start 1 (setRegularValues fresh_engine)))
    as (_ & H2 & _).
  split; [apply H1; reflexivity | apply H2; discriminate].
Defined.





(** *** Snapshots *)

(** **** X20
    The digit snapshots are a store and a load: after [setRegularValues]
    (or [setAlternateValues]) on six digits, [loadRegularValues] (or
    [loadAlternateValues]) puts exactly those digits back, whatever six
    digits are live by then; and taking one snapshot leaves the other
    alone. *)
Theorem X20_snapshot_store_load :
  forall (s : state) (g' : Display),
    length (NumberArray (snd s)) = 6%nat ->
    length (_regularDisplay (fst s)) = 6%nat ->
    length (_alternateDisplay (fst s)) = 6%nat ->
    length (NumberArray g') = 6%nat ->
    NumberArray (snd (loadRegularValues (fst (setRegularValues s), g')))
      = NumberArray (snd s) /\
    NumberArray (snd (loadAlternateValues (fst (setAlternateValues s), g')))
      = NumberArray (snd s) /\
    _alternateDisplay (fst (setRegularValues s)) = _alternateDisplay (fst s) /\
    _regularDisplay (fst (setAlternateValues s)) = _regularDisplay (fst s).
Proof.
  intros [t g] g' Hn Hr Ha Hn'. cbn [fst snd] in *.
  unfold loadRegularValues, loadAlternateValues, setRegularValues,
    setAlternateValues, set_regularDisplay, set_alternateDisplay, set_NumberArray.
  cbn [fst snd NumberArray _regularDisplay _alternateDisplay].
  rewrite (memcpy_all (_regularDisplay t)) by assumption.
  rewrite (memcpy_all (_alternateDisplay t)) by assumption.
  rewrite !memcpy_all by assumption.
  repeat split.
Qed.

Lemma X20_snapshot_store_load_witness :
  NumberArray
    (snd (loadRegularValues
            (fst (setRegularValues fresh_engine),
             mkDisplay [9; 9; 9; 9; 9; 9] [] false)))
  = [1; 2; 3; 4; 5; 6].
Proof.
  destruct (X20_snapshot_store_load fresh_engine (mkDisplay [9; 9; 9; 9; 9; 9] [] false))
    as (H & _); [reflexivity | reflexivity | reflexivity | reflexivity |].
  exact H.
Defined.

(** **** X21
    [updateRegularDisplaySeconds] with a value in 0..99 rewrites the last
    two slots of the regular snapshot and nothing else: slot 4 gets the tens
    digit and slot 5 the units digit, so that [10 * slot4 + slot5] is the
    value again; the first four digits and every other member stay. *)
Theorem X21_seconds_patch :
  forall (seconds : Z) (t : Transition),
    0 <= seconds <= 99 ->
    length (_regularDisplay t) = 6%nat ->
    let t' := updateRegularDisplaySeconds seconds t in
    _regularDisplay t' = take 4 (_regularDisplay t) ++ [seconds / 10; seconds mod 10] /\
    10 * (seconds / 10) + seconds mod 10 = seconds /\
    0 <= seconds / 10 <= 9 /\ 0 <= seconds mod 10 <= 9 /\
    t' = set_regularDisplay (_regularDisplay t') t.
Proof.
  intros seconds [ein eout hold st en reg alt ssb sdt] Hs Hlen t'. cbn in Hlen.
  six reg Hlen. subst t'.
  unfold updateRegularDisplaySeconds, set_regularDisplay, arr_set.
  cbn [_regularDisplay _effectInDuration _effectOutDuration _holdDuration
       _started _end _alternateDisplay _savedScrollback _savedDisplayType].
  rewrite Z.rem_mod_nonneg, Z.quot_div_nonneg by lia.
  pose proof (Z.mod_pos_bound seconds 10 ltac:(lia)) as Hm.
  assert (Hd : 0 <= seconds / 10 <= 9).
  { split; [apply Z.div_pos; lia |].
    assert (seconds / 10 < 10) by (apply Z.div_lt_upper_bound; lia). lia. }
  rewrite !CIntFacts.to_byte_small by lia.
  repeat split; try lia.
  pose proof (Z.div_mod seconds 10 ltac:(lia)). lia.
Qed.

Lemma X21_seconds_patch_witness :
  _regularDisplay (updateRegularDisplaySeconds 47 (fst (setRegularValues fresh_engine)))
  = [1; 2; 3; 4; 4; 7].
Proof.
  destruct (X21_seconds_patch 47 (fst (setRegularValues fresh_engine)))
    as (H & _); [split; discriminate | reflexivity |].
  rewrite H. reflexivity.
Defined.

(** *** Sessions *)



(** **** X23
    The saved scrollback flag does not survive a second [start]: when a
    session has expired and the next one is started with no
    [restoreCurrentDisplayType] in between, the second save records the
    flag that the first one cleared, and a later restore sets the live
    scrollback flag to false whatever it was before the first session. *)
Theorem X23_second_start_loses_scrollback :
  forall (t1 t2 : Z) (s : state),
    _end (fst s) < t1 ->
    _end (fst (start t1 s)) < t2 ->
    _savedScrollback (fst (start t1 s)) = scrollback (snd s) /\
    _savedScrollback (fst (start t2 (start t1 s))) = false /\
    scrollback (snd (restoreCurrentDisplayType (start t2 (start t1 s)))) = false.
Proof.
  intros t1 t2 s H1 H2.
  destruct (start_begins_session t1 s H1) as (_ & _ & _ & Hsb1 & Hlive1 & _).
  destruct (start_begins_session t2 (start t1 s) H2) as (_ & _ & _ & Hsb2 & _).
  cbv zeta in Hsb1, Hlive1, Hsb2.
  split; [exact Hsb1 |].
  assert (Hsaved : _savedScrollback (fst (start t2 (start t1 s))) = false)
    by (rewrite Hsb2; exact Hlive1).
  split; [exact Hsaved |].
  unfold restoreCurrentDisplayType, set_scrollback. cbn [snd scrollback].
  exact Hsaved.
Qed.

Lemma X23_second_start_loses_scrollback_witness :
  scrollback (snd fresh_engine) = true /\
  _end (fst fresh_engine) < 1 /\
  _end (fst (start 1 fresh_engine)) < 3000 /\
  scrollback (snd (restoreCurrentDisplayType (start 3000 (start 1 fresh_engine)))) = false.
Proof.
  assert (H1 : _end (fst fresh_engine) < 1) by reflexivity.
  assert (H2 : _end (fst (start 1 fresh_engine)) < 3000) by reflexivity.
  split; [reflexivity |]. split; [exact H1 |]. split; [exact H2 |].
  destruct (X23_second_start_loses_scrollback 1 3000 fresh_engine H1 H2) as (_ & _ & H).
  exact H.
Defined.




(** *** hash *)

Lemma lxor_below (a b : Z) :
  0 <= a < 4294967296 -> 0 <= b < 4294967296 ->
  0 <= Z.lxor a b < 4294967296.
Proof.
  intros Ha Hb.
  assert (Hn : 0 <= Z.lxor a b) by (apply Z.lxor_nonneg; lia).
  split; [exact Hn |].
  destruct (Z.eq_dec (Z.lxor a b) 0) as [-> | Hne]; [lia |].
  change 4294967296 with (2 ^ 32). apply Z.log2_lt_pow2; [lia |].
  pose proof (Z.log2_lxor a b ltac:(lia) ltac:(lia)) as Hlog.
  assert (HA : Z.log2 a < 32).
  { destruct (Z.eq_dec a 0) as [-> | ?]; [reflexivity |].
    apply Z.log2_lt_pow2; [lia |]. change (2 ^ 32) with 4294967296. lia. }
  assert (HB : Z.log2 b < 32).
  { destruct (Z.eq_dec b 0) as [-> | ?]; [reflexivity |].
    apply Z.log2_lt_pow2; [lia |]. change (2 ^ 32) with 4294967296. lia. }
  lia.
Qed.

(** **** X25
    [hash] always returns a value that fits an [unsigned long], whatever it
    is given: the two multiply rounds are reduced modulo 2^32 and the final
    xor with the value shifted right by 16 does not leave that range. *)
Theorem X25_hash_fits_unsigned_long :
  forall x : Z, 0 <= hash x < 4294967296.
Proof.
  intros x. unfold hash.
  set (x2 := to_ulong _).
  assert (H2 : 0 <= x2 < 4294967296) by apply CIntFacts.to_ulong_range.
  apply lxor_below; [| exact H2].
  rewrite Z.shiftr_div_pow2 by lia. split.
  - apply Z.div_pos; lia.
  - assert (x2 / 2 ^ 16 <= x2) by (apply Z.div_le_upper_bound; lia). lia.
Qed.

(** *** The remaining phases *)







End EngineExtras.
